(** * pytransform3d: the temporal transform manager

    A shallow embedding of
    [pytransform3d/transform_manager/_temporal_transform_manager.py]:
    the [TimeTransform] interface, [StaticTransform] and
    [TemporalTransformManager].

    Python objects have identity and are mutated in place, so
    [TimeTransform] instances live in a heap and the manager's edge map
    holds references to them.  Every method is a computation in a small
    state-and-exception monad over that world: a raised exception keeps
    the mutations made before it, as in Python. *)

From Stdlib Require Import Floats.PrimFloat.
From stdpp Require Import base option list strings.

Set Default Proof Using "Type".

(** ** Python values shared by all instances *)

(** [time] arguments are Python floats; [_current_time] starts at [0.0]. *)
Definition Time : Type := float.

(** Frames are hashable names; an edge key is the tuple
    [(from_frame, to_frame)]. *)
Definition Frame : Type := string.
Definition Key : Type := (Frame * Frame)%type.

(** Object identity of a [TimeTransform] instance. *)
Definition ref : Type := nat.

Inductive exn : Type :=
| KeyError
| AttributeError
| NoPathError
| InvalidTransformError
| UserError.

Inductive Result (A : Type) : Type :=
| Ok (a : A)
| Raise (e : exn).
Arguments Ok {A} a.
Arguments Raise {A} e.

(** ** Python dictionaries

    A [dict] keeps its items in insertion order; iteration order is
    visible as soon as the iterated code has effects, so the items are a
    list with one entry per key. *)
Module Dict.

Definition dict (V : Type) : Type := list (Key * V).

Definition keys {V} (d : dict V) : list Key := d.*1.

(** [d[k]], [None] standing for [KeyError]. *)
Fixpoint get {V} (d : dict V) (k : Key) : option V :=
  match d with
  | [] => None
  | (k', v) :: d' => if decide (k' = k) then Some v else get d' k
  end.

(** [k in d] *)
Fixpoint contains {V} (d : dict V) (k : Key) : bool :=
  match d with
  | [] => false
  | (k', _) :: d' => if decide (k' = k) then true else contains d' k
  end.

(** [d[k] = v]: overwrite in place, or append a new item. *)
Fixpoint set {V} (d : dict V) (k : Key) (v : V) : dict V :=
  match d with
  | [] => [(k, v)]
  | (k', v') :: d' =>
      if decide (k' = k) then (k, v) :: d' else (k', v') :: set d' k v
  end.

(** [del d[k]], [None] standing for [KeyError]. *)
Fixpoint del {V} (d : dict V) (k : Key) : option (dict V) :=
  match d with
  | [] => None
  | (k', v') :: d' =>
      if decide (k' = k) then Some d'
      else match del d' k with
           | Some d'' => Some ((k', v') :: d'')
           | None => None
           end
  end.

End Dict.
Import Dict.

(** ** The external module [..transformations]

    [check_transform], [invert_transform] and [concat] are imported from
    the numeric part of the library, which is not part of this
    development: they are taken as an interface.  [check_transform]
    returns the (possibly normalised) matrix or raises. *)
Class Transformations : Type := {
  Matrix : Type;
  check_transform : Matrix -> Result Matrix;
  invert_transform : Matrix -> Matrix;
  concat : Matrix -> Matrix -> Matrix;
  eye4 : Matrix;
}.

Section TemporalTransformManager.

Context `{Transformations}.

(** Instance state of the user-supplied subclasses of [TimeTransform]. *)
Context {UserObj : Type}.

(** A value handed to the manager as [A2B]: a raw matrix, or a
    reference to an instance of [TimeTransform]. *)
Inductive pyval : Type :=
| PyMatrix (A2B : Matrix)
| PyRef (r : ref).

(** class TimeTransform(abc.ABC), with its concrete subclass
    [StaticTransform] (one attribute, [_A2B]) and the subclasses
    supplied by users. *)
Inductive TimeTransform : Type :=
| StaticTransform (_A2B : Matrix)
| UserTransform (u : UserObj).

(** Attributes of a [TemporalTransformManager]; [strict_check] and
    [check] are set by the base class constructor. *)
Record Manager : Type := mkManager {
  _transforms : dict pyval;
  _current_time : Time;
  strict_check : bool;
  check : bool;
}.

(** The world a method runs in: the heap of [TimeTransform] instances
    (a reference is an index, allocation appends), the manager [self],
    and the trace of the arguments the external [check_transform] has
    been called with. *)
Record World : Type := mkWorld {
  heap : list TimeTransform;
  self : Manager;
  checked : list Matrix;
}.

Definition with_heap (h : list TimeTransform) (w : World) : World :=
  mkWorld h (self w) (checked w).
Definition with_self (m : Manager) (w : World) : World :=
  mkWorld (heap w) m (checked w).
Definition with_checked (l : list Matrix) (w : World) : World :=
  mkWorld (heap w) (self w) l.

(** *** The monad of methods *)

Definition M (A : Type) : Type := World -> Result A * World.

Definition ret {A} (a : A) : M A := fun w => (Ok a, w).
Definition raise {A} (e : exn) : M A := fun w => (Raise e, w).
Definition bind {A B} (m : M A) (k : A -> M B) : M B :=
  fun w =>
    match m w with
    | (Ok a, w') => k a w'
    | (Raise e, w') => (Raise e, w')
    end.

Notation "'let*' x ':=' m 'in' k" := (bind m (fun x => k))
  (at level 10, x name, m at level 100, k at level 200).

Definition get_self : M Manager := fun w => (Ok (self w), w).
Definition put_self (m : Manager) : M unit :=
  fun w => (Ok tt, with_self m w).

(** Attribute lookup on a value: a raw matrix has no methods, a
    reference is resolved in the heap. *)
Definition deref (v : pyval) : M (ref * TimeTransform) :=
  fun w =>
    match v with
    | PyMatrix _ => (Raise AttributeError, w)
    | PyRef r =>
        match heap w !! r with
        | Some o => (Ok (r, o), w)
        | None => (Raise AttributeError, w)
        end
    end.

(** [self._A2B = A2B] on the instance [r]. *)
Definition store (r : ref) (o : TimeTransform) : M unit :=
  fun w => (Ok tt, with_heap (<[r := o]> (heap w)) w).

(** Instantiation: the new object gets a fresh identity. *)
Definition new (o : TimeTransform) : M pyval :=
  fun w => (Ok (PyRef (length (heap w))), with_heap (heap w ++ [o]) w).

(** A call of the external [check_transform], recorded in the trace. *)
Definition call_check_transform (A2B : Matrix) : M Matrix :=
  fun w =>
    let w' := with_checked (checked w ++ [A2B]) w in
    match check_transform A2B with
    | Ok A => (Ok A, w')
    | Raise e => (Raise e, w')
    end.

(** *** Methods of the user-supplied subclasses

    [as_matrix] and [check_transforms] are abstract in [TimeTransform];
    what a user's subclass does is arbitrary code over the world. *)
Variable user_as_matrix : UserObj -> ref -> Time -> M Matrix.
Variable user_check_transforms : UserObj -> ref -> M pyval.

(** *** class StaticTransform *)

(** [StaticTransform(A2B)] *)
Definition StaticTransform__init__ (A2B : Matrix) : M pyval :=
  new (StaticTransform A2B).

(** [def as_matrix(self, time): return self._A2B] *)
Definition StaticTransform_as_matrix (_A2B : Matrix) (time : Time)
  : M Matrix :=
  ret _A2B.

(** [self._A2B = check_transform(self._A2B); return self] *)
Definition StaticTransform_check_transforms (r : ref) (_A2B : Matrix)
  : M pyval :=
  let* A := call_check_transform _A2B in
  let* _ := store r (StaticTransform A) in
  ret (PyRef r).

(** Method dispatch on the class of the receiver. *)
Definition as_matrix (v : pyval) (time : Time) : M Matrix :=
  let* ro := deref v in
  match ro with
  | (_, StaticTransform _A2B) => StaticTransform_as_matrix _A2B time
  | (r, UserTransform u) => user_as_matrix u r time
  end.

Definition check_transforms (v : pyval) : M pyval :=
  let* ro := deref v in
  match ro with
  | (r, StaticTransform _A2B) => StaticTransform_check_transforms r _A2B
  | (r, UserTransform u) => user_check_transforms u r
  end.

(** [isinstance(A2B, TimeTransform)] *)
Definition isinstance_TimeTransform (v : pyval) : bool :=
  match v with
  | PyMatrix _ => false
  | PyRef _ => true
  end.

(** *** class TemporalTransformManager *)

(** [__init__(self, strict_check=True, check=True)] *)
Definition __init__ (strict_check check : bool) : Manager :=
  {| _transforms := [];
     _current_time := 0%float;
     strict_check := strict_check;
     check := check |}.

(** The property [current_time]. *)
Definition current_time : M Time :=
  let* m := get_self in ret (_current_time m).

Definition set_time (time : Time) : M unit :=
  let* m := get_self in
  put_self (mkManager (_transforms m) time (strict_check m) (check m)).

(** The dict comprehension of [transforms]: the items are visited in
    order, and [self.current_time] is read anew for each of them. *)
Fixpoint eval_items (items : list (Key * pyval)) : M (dict Matrix) :=
  match items with
  | [] => ret []
  | (tf_direction, transform) :: rest =>
      let* t := current_time in
      let* A := as_matrix transform t in
      let* d := eval_items rest in
      ret ((tf_direction, A) :: d)
  end.

(** The property [transforms]. *)
Definition transforms : M (dict Matrix) :=
  let* m := get_self in eval_items (_transforms m).

Definition _transform_available (key : Key) : M bool :=
  let* m := get_self in ret (contains (_transforms m) key).

(** The test [if not isinstance(A2B, TimeTransform)] is the case
    analysis on the value. *)
Definition _set_transform (key : Key) (A2B : pyval) : M unit :=
  let* A2B := match A2B with
              | PyMatrix A => StaticTransform__init__ A
              | PyRef _ => ret A2B
              end in
  let* m := get_self in
  put_self (mkManager (set (_transforms m) key A2B) (_current_time m)
                      (strict_check m) (check m)).

Definition _get_transform (key : Key) : M Matrix :=
  let* d := transforms in
  match get d key with
  | Some A => ret A
  | None => raise KeyError
  end.

Definition _del_transform (key : Key) : M unit :=
  let* m := get_self in
  match del (_transforms m) key with
  | Some d => put_self (mkManager d (_current_time m)
                                  (strict_check m) (check m))
  | None => raise KeyError
  end.

Definition _check_transform (A2B : pyval) : M pyval :=
  check_transforms A2B.

(** *** The inherited query [get_transform]

    [get_transform] belongs to the base class [TransformGraphBase], whose
    source is missing; it reaches this class only through the hooks
    above.  It is modelled here, with its helpers, from the
    specification. *)

(** Modelled from the spec: the frames of [TransformGraphBase], in the
    order in which they first occur in a registered edge. *)
Definition frames (d : dict pyval) : list Frame :=
  foldl (fun seen f => if bool_decide (f ∈ seen) then seen else seen ++ [f])
        [] (flat_map (fun kv => [kv.1.1; kv.1.2]) d).

(** Modelled from the spec: the undirected view of the registered edges
    used by the path search of [TransformGraphBase]. *)
Definition neighbours (d : dict pyval) (f : Frame) : list Frame :=
  filter (fun g => contains d (f, g) || contains d (g, f) = true) (frames d).

(** Modelled from the spec: the breadth-first path search of
    [TransformGraphBase]; the queue holds the paths found so far, each
    with its last frame first. *)
Fixpoint bfs (fuel : nat) (d : dict pyval) (to_frame : Frame)
    (queue : list (list Frame)) (visited : list Frame)
  : option (list Frame) :=
  match fuel, queue with
  | S fuel, (f :: path) :: queue =>
      if decide (f = to_frame) then Some (rev (f :: path))
      else
        let found := filter (fun g => g ∉ visited) (neighbours d f) in
        bfs fuel d to_frame
            (queue ++ map (fun g => g :: f :: path) found)
            (visited ++ found)
  | _, _ => None
  end.

(** Modelled from the spec: the matrix of one hop in
    [TransformGraphBase.get_transform]: the registered transform, or the
    inverse of the one registered in the other direction. *)
Definition edge_transform (f g : Frame) : M Matrix :=
  let* registered := _transform_available (f, g) in
  if registered then _get_transform (f, g)
  else let* B2A := _get_transform (g, f) in ret (invert_transform B2A).

(** Modelled from the spec: the composition of the hops of a path in
    [TransformGraphBase.get_transform], in path order. *)
Fixpoint path_transform (A2B : Matrix) (f : Frame) (rest : list Frame)
  : M Matrix :=
  match rest with
  | [] => ret A2B
  | g :: rest' =>
      let* B2C := edge_transform f g in
      path_transform (concat A2B B2C) g rest'
  end.

(** Modelled from the spec: [get_transform] of [TransformGraphBase],
    whose source is missing.  Identity for a frame against itself;
    otherwise the path with the fewest hops over the undirected view of
    the registered edges, each hop evaluated through the hooks at the
    ambient time and the hops composed in path order; [NoPathError] when
    the frames are not connected. *)
Definition TransformGraphBase_get_transform (from_frame to_frame : Frame)
  : M Matrix :=
  if decide (from_frame = to_frame) then ret eye4
  else
    let* m := get_self in
    let d := _transforms m in
    match bfs (S (S (length (frames d)))) d to_frame
              [[from_frame]] [from_frame] with
    | Some (f0 :: f1 :: rest) =>
        let* A2B := edge_transform f0 f1 in
        path_transform A2B f1 rest
    | _ => raise NoPathError
    end.

Section InTime.

(** [get_transform_in_time] calls the inherited [get_transform]; what
    follows holds for every implementation of it. *)
Variable get_transform : Frame -> Frame -> M Matrix.

Definition get_transform_in_time (from_frame to_frame : Frame)
    (time : Time) : M Matrix :=
  let* m := get_self in
  let previous_time := _current_time m in
  let* _ := set_time time in
  let* A2B := get_transform from_frame to_frame in
  (* revert internal state *)
  let* _ := set_time previous_time in
  ret A2B.

End InTime.

(** *** Reading a single edge directly

    The evaluation of one edge as the specification words it:
    [self._transforms[key].as_matrix(self.current_time)], without
    building the whole dictionary first. *)
Definition _get_transform_direct (key : Key) : M Matrix :=
  let* m := get_self in
  match get (_transforms m) key with
  | Some transform =>
      let* t := current_time in
      as_matrix transform t
  | None => raise KeyError
  end.

(** *** Well-formed worlds *)

(** A value that answers [as_matrix]: a reference to a live instance of
    [TimeTransform]. *)
Definition is_TimeTransform (w : World) (v : pyval) : Prop :=
  ∃ r o, v = PyRef r ∧ heap w !! r = Some o.

(** Every value held by the edge map is a [TimeTransform]. *)
Definition stored_TimeTransforms (w : World) : Prop :=
  Forall (fun kv => is_TimeTransform w kv.2) (_transforms (self w)).

(** [as_matrix] of the instance behind [v] is a pure function of time:
    it returns a matrix that depends on nothing but the instance and the
    time, raises nothing and leaves the world as it is.  This holds of
    every [StaticTransform]; for a user's subclass it is an assumption. *)
Definition pure_as_matrix (w : World) (v : pyval) : Prop :=
  ∀ r u, v = PyRef r → heap w !! r = Some (UserTransform u) →
    ∀ t, ∃ A, ∀ w', user_as_matrix u r t w' = (Ok A, w').

Definition stored_pure (w : World) : Prop :=
  Forall (fun kv => pure_as_matrix w kv.2) (_transforms (self w)).

(** The item [(k, A)] of the result of [transforms] stands for the item
    [(k, v)] of the edge map when [v] evaluates to [A] at the ambient
    time. *)
Definition evaluates (w : World) (kv : Key * pyval) (kA : Key * Matrix)
  : Prop :=
  kA.1 = kv.1
  ∧ as_matrix kv.2 (_current_time (self w)) w = (Ok kA.2, w).

(** *** Clients of the manager

    The calls by which a client changes the world: instantiating a
    transform, the mutating hooks, [set_time], and the validity check. *)
Inductive call : Type :=
| New (o : TimeTransform)
| SetTransform (key : Key) (A2B : pyval)
| DelTransform (key : Key)
| SetTime (time : Time)
| CheckTransform (A2B : pyval).

(** The world after a call, whether it returned or raised. *)
Definition run (c : call) (w : World) : World :=
  match c with
  | New o => (new o w).2
  | SetTransform key A2B => (_set_transform key A2B w).2
  | DelTransform key => (_del_transform key w).2
  | SetTime time => (set_time time w).2
  | CheckTransform A2B => (_check_transform A2B w).2
  end.

(** Python hands out references to live objects only, and what
    [check_transforms] of a user's subclass does is not known: such
    calls are left out. *)
Definition admissible (w : World) (c : call) : Prop :=
  match c with
  | SetTransform _ (PyRef r) => r < length (heap w)
  | CheckTransform (PyRef r) => ∃ A, heap w !! r = Some (StaticTransform A)
  | _ => True
  end.

(** A sequence of calls, each admissible in the world it is made in. *)
Fixpoint run_all (cs : list call) (w : World) : World :=
  match cs with
  | [] => w
  | c :: cs' => run_all cs' (run c w)
  end.

Fixpoint admissible_all (w : World) (cs : list call) : Prop :=
  match cs with
  | [] => True
  | c :: cs' => admissible w c ∧ admissible_all (run c w) cs'
  end.


(** The worlds a client can bring about, starting from a manager that
    was just constructed (the heap may already hold transforms). *)
Inductive reachable : World → Prop :=
| reachable_init h strict_check check :
    reachable (mkWorld h (__init__ strict_check check) [])
| reachable_call w c :
    reachable w → admissible w c → reachable (run c w).

End TemporalTransformManager.

Arguments get_transform_in_time {_ _} get_transform from_frame to_frame time.

(** ** A concrete scene

    An instance of the interface over 4x4 homogeneous matrices with
    integer entries (rows first), one user-supplied subclass, and a small
    graph; the general statements below are exercised on it. *)
Module Scene.

Definition Zmat : Type := list (list Z).

Definition column (j : nat) (A : Zmat) : list Z :=
  map (fun row => nth j row 0%Z) A.

Definition dot (u v : list Z) : Z :=
  foldr Z.add 0%Z (zip_with Z.mul u v).

Definition matmul (A B : Zmat) : Zmat :=
  map (fun row => map (fun j => dot row (column j B)) (seq 0 (length row))) A.

Definition eye (n : nat) : Zmat :=
  map (fun i => map (fun j => if decide (i = j) then 1%Z else 0%Z) (seq 0 n))
      (seq 0 n).

(** Rotation block and translation column of a transform. *)
Definition rotation (A : Zmat) : Zmat := map (take 3) (take 3 A).
Definition translation (A : Zmat) : list Z := take 3 (column 3 A).

Definition transpose3 (R : Zmat) : Zmat :=
  map (fun j => column j R) (seq 0 3).

Definition det3 (R : Zmat) : Z :=
  let e (i j : nat) := nth j (nth i R []) 0%Z in
  let '(a, b, c) := (e 0 0, e 0 1, e 0 2) in
  let '(d, f, g) := (e 1 0, e 1 1, e 1 2) in
  let '(h, k, l) := (e 2 0, e 2 1, e 2 2) in
  (a * (f * l - g * k) - b * (d * l - g * h) + c * (d * k - f * h))%Z.

(** A valid rigid transform: 4x4, bottom row [0 0 0 1], orthonormal
    rotation of determinant one.  Nothing is normalised here. *)
Definition Zcheck_transform (A : Zmat) : Result Zmat :=
  if decide (length A = 4 ∧ Forall (fun row => length row = 4) A
             ∧ nth 3 A [] = [0; 0; 0; 1]%Z
             ∧ matmul (rotation A) (transpose3 (rotation A)) = eye 3
             ∧ det3 (rotation A) = 1%Z)
  then Ok A else Raise InvalidTransformError.

(** The inverse of [[R p] [0 1]] is [[R^T  -R^T p] [0 1]]. *)
Definition Zinvert_transform (A : Zmat) : Zmat :=
  map (fun row => row ++ [(- dot row (translation A))%Z])
      (transpose3 (rotation A))
  ++ [[0; 0; 0; 1]%Z].

(** [concat(A2B, B2C)] is the product [B2C . A2B]. *)
Definition Zconcat (A2B B2C : Zmat) : Zmat := matmul B2C A2B.

#[global] Instance Ztransformations : Transformations := {|
  Matrix := Zmat;
  check_transform := Zcheck_transform;
  invert_transform := Zinvert_transform;
  concat := Zconcat;
  eye4 := eye 4;
|}.

Definition translate (x y z : Z) : Zmat :=
  [[1; 0; 0; x]; [0; 1; 0; y]; [0; 0; 1; z]; [0; 0; 0; 1]]%Z.

(** Quarter turn about the z axis. *)
Definition quarter_turn : Zmat :=
  [[0; -1; 0; 0]; [1; 0; 0; 0]; [0; 0; 1; 0]; [0; 0; 0; 1]]%Z.

(** A matrix that is no rigid transform (it scales). *)
Definition scaling : Zmat :=
  [[2; 0; 0; 0]; [0; 2; 0; 0]; [0; 0; 2; 0]; [0; 0; 0; 1]]%Z.

(** A user's subclass of [TimeTransform]: a joint that turns at time
    [at_time].  Its [as_matrix] is a pure function of time, its
    [check_transforms] checks both poses and returns the object. *)
Record Joint : Type := mkJoint {
  at_time : Time;
  before : Zmat;
  after : Zmat;
}.

Definition Joint_as_matrix (u : Joint) (r : ref) (time : Time)
  : M (UserObj := Joint) Zmat :=
  ret (if PrimFloat.ltb time (at_time u) then before u else after u).

Definition Joint_check_transforms (u : Joint) (r : ref)
  : M (UserObj := Joint) pyval :=
  bind (call_check_transform (before u)) (fun _ =>
  bind (call_check_transform (after u)) (fun _ =>
  ret (PyRef r))).

Definition as_matrix := as_matrix Joint_as_matrix.
Definition transforms := transforms Joint_as_matrix.
Definition _get_transform := _get_transform Joint_as_matrix.
Definition _get_transform_direct := _get_transform_direct Joint_as_matrix.
Definition _check_transform := _check_transform Joint_check_transforms.
Definition get_transform := TransformGraphBase_get_transform Joint_as_matrix.
Definition get_transform_in_time := get_transform_in_time get_transform.

Definition world : Frame := "world".
Definition robot : Frame := "robot".
Definition sensor : Frame := "sensor".
Definition tool : Frame := "tool".
Definition island : Frame := "island".

(** A manager that was just constructed, in an empty heap. *)
Definition empty_world : World (UserObj := Joint) :=
  mkWorld [] (__init__ true true) [].

(** world -> robot (identity), robot -> sensor (one unit along x),
    tool -> sensor (a joint turning at time 1.0). *)
Definition calls : list (call (UserObj := Joint)) :=
  [ SetTransform (world, robot) (PyMatrix (eye 4));
    SetTransform (robot, sensor) (PyMatrix (translate 1 0 0));
    New (UserTransform (mkJoint 1%float (eye 4) quarter_turn));
    SetTransform (tool, sensor) (PyRef 2) ].

Definition scene : World := run_all Joint_check_transforms calls empty_world.

(** One [StaticTransform] object registered under two edges. *)
Definition shared_calls : list (call (UserObj := Joint)) :=
  [ New (StaticTransform (translate 1 0 0));
    SetTransform (world, robot) (PyRef 0);
    SetTransform (robot, sensor) (PyRef 0) ].

Definition shared : World :=
  run_all Joint_check_transforms shared_calls empty_world.

(** A heap with one [StaticTransform] that holds a matrix the check
    rejects. *)
Definition rejected : World (UserObj := Joint) :=
  (StaticTransform__init__ scaling empty_world).2.

End Scene.

(** ** A transform that is not defined at every time

    Another user-supplied subclass: its [as_matrix] has no pose before
    the time [start] and raises there.  It has no side effect. *)
Module Faulty.



(** world -> robot is static; robot -> sensor starts at time 10.0, and
    the ambient time is 0.0. *)
Definition calls : list (call (UserObj := Time)) :=
  [ SetTransform (Scene.world, Scene.robot)
      (PyMatrix (Scene.translate 1 0 0));
    New (UserTransform 10%float);
    SetTransform (Scene.robot, Scene.sensor) (PyRef 1) ].


End Faulty.

(** * Properties *)

(** ** Facts about dictionaries *)
Module DictFacts.
Section Facts.

Context {V : Type}.
Implicit Types (d : dict V) (k : Key) (v : V).

Lemma contains_keys d k : contains d k = true ↔ k ∈ keys d.
Proof.
unfold keys. induction d as [|[k' v'] d IH]; simpl.
- split; [discriminate | intros Hin; inversion Hin].
- rewrite elem_of_cons. destruct (decide (k' = k)) as [->|Hne].
  + split; auto.
  + rewrite IH. split; [auto | intros [->|?]; [done | assumption]].
Qed.

Lemma contains_get d k : contains d k = true ↔ is_Some (get d k).
Proof.
induction d as [|[k' v'] d IH]; simpl.
- split; [discriminate | intros [? ?]; discriminate].
- destruct (decide (k' = k)); [split; eauto | exact IH].
Qed.

Lemma get_set_eq d k v : get (set d k v) k = Some v.
Proof.
induction d as [|[k' v'] d IH]; simpl.
- by rewrite decide_True.
- destruct (decide (k' = k)) as [->|Hne]; simpl.
  + by rewrite decide_True.
  + by rewrite decide_False.
Qed.

Lemma get_set_ne d k k' v : k' ≠ k → get (set d k v) k' = get d k'.
Proof.
intros Hne. induction d as [|[k0 v0] d IH]; simpl.
- by rewrite decide_False.
- destruct (decide (k0 = k)) as [->|Hne0]; simpl.
  + by rewrite !decide_False.
  + destruct (decide (k0 = k')); [done | exact IH].
Qed.

Lemma contains_set_eq d k v : contains (set d k v) k = true.
Proof. apply contains_get. rewrite get_set_eq. eauto. Qed.

Lemma contains_set_ne d k k' v :
k' ≠ k → contains (set d k v) k' = contains d k'.
Proof.
intros Hne. induction d as [|[k0 v0] d IH]; simpl.
- by rewrite decide_False.
- destruct (decide (k0 = k)) as [->|Hne0]; simpl.
  + by rewrite !decide_False.
  + destruct (decide (k0 = k')); [done | exact IH].
Qed.

(** Storing keeps what holds of every item, if it holds of the new one. *)
Lemma Forall_set (P : Key * V → Prop) d k v :
Forall P d → P (k, v) → Forall P (set d k v).
Proof.
intros Hd Hkv. induction Hd as [|[k' v'] d Hx Hd IH]; simpl.
- by constructor.
- destruct (decide (k' = k)); constructor; auto.
Qed.

(** Deleting only removes items. *)
Lemma Forall_del (P : Key * V → Prop) d d' k :
Forall P d → del d k = Some d' → Forall P d'.
Proof.
intros Hd. revert d'.
induction Hd as [|[k' v'] d Hx Hd IH]; simpl; intros d' Hdel.
- discriminate.
- destruct (decide (k' = k)).
  + by injection Hdel as <-.
  + destruct (del d k) as [d''|]; [|discriminate].
    injection Hdel as <-. constructor; auto.
Qed.



End Facts.
End DictFacts.
Import DictFacts.

(** ** The manager, for every instance of the interface *)
Section Properties.

Context `{Transformations} {UserObj : Type}.
Variable user_as_matrix : UserObj → ref → Time → M (UserObj := UserObj) Matrix.
Variable user_check_transforms : UserObj → ref → M (UserObj := UserObj) pyval.
Variable get_transform : Frame → Frame → M (UserObj := UserObj) Matrix.

Implicit Types (w : World (UserObj := UserObj)) (v : pyval) (r : ref).
Implicit Types (key : Key) (time : Time) (A : Matrix).

(** *** The ambient time *)

Lemma set_time_spec time w :
  set_time time w
  = (Ok tt, mkWorld (heap w)
              (mkManager (_transforms (self w)) time
                         (strict_check (self w)) (check (self w)))
              (checked w)).
Proof. reflexivity. Qed.

Lemma current_time_spec w :
  current_time w = (Ok (_current_time (self w)), w).
Proof. reflexivity. Qed.

(** On the normal return of [get_transform] the ambient time is put
    back, whatever [get_transform] did to it. *)
Lemma get_transform_in_time_returns from_frame to_frame time w A w1 :
  get_transform from_frame to_frame (set_time time w).2 = (Ok A, w1) →
  get_transform_in_time get_transform from_frame to_frame time w
  = (Ok A, (set_time (_current_time (self w)) w1).2).
Proof.
  intros Hget. unfold get_transform_in_time, bind, get_self.
  simpl in *. by rewrite Hget.
Qed.

Lemma get_transform_in_time_restores_on_return
    from_frame to_frame time w A w1 :
  get_transform from_frame to_frame (set_time time w).2 = (Ok A, w1) →
  ∃ w', get_transform_in_time get_transform from_frame to_frame time w
        = (Ok A, w')
        ∧ _current_time (self w') = _current_time (self w).
Proof.
  intros Hget. eexists. split.
  - by apply get_transform_in_time_returns.
  - reflexivity.
Qed.

(** When [get_transform] raises, the exception leaves
    [get_transform_in_time] at once: the world is the one
    [get_transform] left, and the line that reverts the time is not
    run. *)
Lemma get_transform_in_time_raises from_frame to_frame time w e w1 :
  get_transform from_frame to_frame (set_time time w).2 = (Raise e, w1) →
  get_transform_in_time get_transform from_frame to_frame time w
  = (Raise e, w1).
Proof.
  intros Hget. unfold get_transform_in_time, bind, get_self.
  simpl in *. by rewrite Hget.
Qed.

(** C2: [get_transform_in_time(A, B, t)] returns what [get_transform(A, B)]
    returns on the world that differs from the given one in the ambient
    time only, which is [t] there: the query is delegated at the
    overridden time, not at the previous one.  (The two agree on the
    exception raised as well.) *)
Theorem get_transform_in_time_delegates from_frame to_frame time w :
  (get_transform_in_time get_transform from_frame to_frame time w).1
  = (get_transform from_frame to_frame
       (mkWorld (heap w)
          (mkManager (_transforms (self w)) time
                     (strict_check (self w)) (check (self w)))
          (checked w))).1
  ∧ current_time
      (mkWorld (heap w)
         (mkManager (_transforms (self w)) time
                    (strict_check (self w)) (check (self w)))
         (checked w))
    = (Ok time,
       mkWorld (heap w)
         (mkManager (_transforms (self w)) time
                    (strict_check (self w)) (check (self w)))
         (checked w)).
Proof.
  split; [|reflexivity].
  destruct (get_transform from_frame to_frame (set_time time w).2)
    as [[A|e] w1] eqn:Hget.
  - rewrite (get_transform_in_time_returns _ _ _ _ _ _ Hget).
    exact (eq_sym (f_equal fst Hget)).
  - rewrite (get_transform_in_time_raises _ _ _ _ _ _ Hget).
    exact (eq_sym (f_equal fst Hget)).
Qed.

(** *** StaticTransform *)

Lemma StaticTransform__init___spec A w :
  StaticTransform__init__ A w
  = (Ok (PyRef (length (heap w))),
     mkWorld (heap w ++ [StaticTransform A]) (self w) (checked w))
  ∧ (heap w ++ [StaticTransform A]) !! length (heap w)
    = Some (StaticTransform A).
Proof.
  split; [reflexivity|].
  rewrite lookup_app_r by lia. by rewrite Nat.sub_diag.
Qed.

(** Dispatch on a reference to a [StaticTransform] runs its
    [as_matrix]. *)
Lemma as_matrix_static A r time w :
  heap w !! r = Some (StaticTransform A) →
  as_matrix user_as_matrix (PyRef r) time w = (Ok A, w).
Proof.
  intros Hr. unfold as_matrix, bind, deref. by rewrite Hr.
Qed.

(** C3: [as_matrix(t)] of a [StaticTransform] holding the matrix [A]
    returns [A] for every time [t]: the answers at any two times are the
    same.  The call changes nothing: not the object, not the manager,
    not any other part of the world. *)
Theorem StaticTransform_as_matrix_constant A r time w :
  heap w !! r = Some (StaticTransform A) →
  as_matrix user_as_matrix (PyRef r) time w = (Ok A, w)
  ∧ ∀ time', as_matrix user_as_matrix (PyRef r) time' w
             = as_matrix user_as_matrix (PyRef r) time w.
Proof.
  intros Hr. split.
  - unfold as_matrix, bind, deref. rewrite Hr. reflexivity.
  - intros time'. unfold as_matrix, bind, deref. rewrite Hr. reflexivity.
Qed.

(** What [_check_transform] does to a [StaticTransform]: one call of
    the external check on the stored matrix; the result replaces the
    stored matrix, or the exception leaves the object as it was. *)
Lemma _check_transform_static A r w :
  heap w !! r = Some (StaticTransform A) →
  _check_transform user_check_transforms (PyRef r) w
  = match check_transform A with
    | Ok A' => (Ok (PyRef r),
                mkWorld (<[r := StaticTransform A']> (heap w)) (self w)
                        (checked w ++ [A]))
    | Raise e => (Raise e, mkWorld (heap w) (self w) (checked w ++ [A]))
    end.
Proof.
  intros Hr.
  unfold _check_transform, check_transforms, bind, deref. rewrite Hr.
  unfold StaticTransform_check_transforms, bind, call_check_transform.
  by destruct (check_transform A).
Qed.

Lemma _check_transform_raw A w :
  _check_transform user_check_transforms (PyMatrix A) w
  = (Raise AttributeError, w).
Proof. reflexivity. Qed.

(** C5: on a [StaticTransform] holding [A], [_check_transform] calls
    the external [check_transform] exactly once, on [A]; when that
    returns [A'], the object now holds [A'], the very same object is
    returned, and from then on [as_matrix] returns the checked matrix. *)
Theorem StaticTransform_check_transforms_once A A' r w :
  heap w !! r = Some (StaticTransform A) →
  check_transform A = Ok A' →
  ∃ w', _check_transform user_check_transforms (PyRef r) w
        = (Ok (PyRef r), w')
    ∧ checked w' = checked w ++ [A]
    ∧ heap w' = <[r := StaticTransform A']> (heap w)
    ∧ self w' = self w
    ∧ ∀ time, as_matrix user_as_matrix (PyRef r) time w' = (Ok A', w').
Proof.
  intros Hr Hcheck. eexists. split.
  - rewrite (_check_transform_static _ _ _ Hr), Hcheck. reflexivity.
  - repeat split. intros time.
    apply as_matrix_static. simpl.
    apply list_lookup_insert_eq. by eapply lookup_lt_Some.
Qed.

(** *** The hooks on the edge map *)

Lemma _set_transform_spec key v w :
  _set_transform key v w
  = match v with
    | PyMatrix A =>
        (Ok tt,
         mkWorld (heap w ++ [StaticTransform A])
           (mkManager (set (_transforms (self w)) key
                           (PyRef (length (heap w))))
                      (_current_time (self w))
                      (strict_check (self w)) (check (self w)))
           (checked w))
    | PyRef r =>
        (Ok tt,
         mkWorld (heap w)
           (mkManager (set (_transforms (self w)) key (PyRef r))
                      (_current_time (self w))
                      (strict_check (self w)) (check (self w)))
           (checked w))
    end.
Proof. by destruct v. Qed.

(** C4: [_set_transform(key, value)] stores, at [key], the value itself
    when it is an instance of [TimeTransform] (no object is created),
    and otherwise a new [StaticTransform] that holds the raw matrix. *)
Theorem _set_transform_wraps_raw_matrix key v w :
  ∃ w' stored,
    _set_transform key v w = (Ok tt, w')
    ∧ get (_transforms (self w')) key = Some stored
    ∧ if isinstance_TimeTransform v
      then stored = v ∧ heap w' = heap w
      else ∃ A, v = PyMatrix A
             ∧ stored = PyRef (length (heap w))
             ∧ heap w !! length (heap w) = None
             ∧ heap w' = heap w ++ [StaticTransform A]
             ∧ heap w' !! length (heap w) = Some (StaticTransform A).
Proof.
  rewrite _set_transform_spec. destruct v as [A|r]; simpl.
  - eexists _, _. split; [reflexivity|]. simpl. split.
    + apply get_set_eq.
    + exists A. repeat split.
      * by apply lookup_ge_None.
      * apply StaticTransform__init___spec; exact w.
  - eexists _, _. split; [reflexivity|]. simpl. split.
    + apply get_set_eq.
    + done.
Qed.

Lemma _transform_available_spec key w :
  _transform_available key w = (Ok (contains (_transforms (self w)) key), w).
Proof. reflexivity. Qed.

(** C6: for every pair of frames, equal or not, the hook behind
    [has_transform(A, B)] answers [True] exactly when the key [(A, B)]
    itself is in the edge map, and changes nothing.  Registering [(A, B)]
    makes it available; for two different frames it leaves the answer
    for [(B, A)] as it was, so that [(B, A)] stays unavailable if it
    was. *)
Theorem _transform_available_exact_key (A B : Frame) v w :
  (∃ b, _transform_available (A, B) w = (Ok b, w)
        ∧ (b = true ↔ (A, B) ∈ keys (_transforms (self w))))
  ∧ (_transform_available (A, B) (_set_transform (A, B) v w).2).1 = Ok true
  ∧ (A ≠ B →
     (_transform_available (B, A) (_set_transform (A, B) v w).2).1
     = (_transform_available (B, A) w).1)
  ∧ (A ≠ B → (B, A) ∉ keys (_transforms (self w)) →
     (_transform_available (B, A) (_set_transform (A, B) v w).2).1
     = Ok false).
Proof.
  assert (Hother : A ≠ B →
            (_transform_available (B, A) (_set_transform (A, B) v w).2).1
            = (_transform_available (B, A) w).1).
  { intros Hne. rewrite _set_transform_spec, !_transform_available_spec.
    assert ((B, A) ≠ (A, B)) by congruence.
    destruct v; simpl; by rewrite contains_set_ne. }
  split_and!.
  - eexists. split; [apply _transform_available_spec|].
    apply contains_keys.
  - rewrite _set_transform_spec, _transform_available_spec.
    destruct v; simpl; by rewrite contains_set_eq.
  - exact Hother.
  - intros Hne Hfree. rewrite (Hother Hne), _transform_available_spec.
    simpl. f_equal.
    destruct (contains (_transforms (self w)) (B, A)) eqn:Hc; [|done].
    by apply contains_keys in Hc.
Qed.



(** *** Evaluating the edges *)

(** A live instance whose [as_matrix] is pure evaluates to a matrix and
    leaves the world alone. *)
Lemma as_matrix_pure v time w :
  is_TimeTransform w v → pure_as_matrix user_as_matrix w v →
  ∃ A, as_matrix user_as_matrix v time w = (Ok A, w).
Proof.
  intros (r & o & -> & Hr) Hpure. destruct o as [A|u].
  - exists A. by apply as_matrix_static.
  - destruct (Hpure r u eq_refl Hr time) as [A HA]. exists A.
    unfold as_matrix, bind, deref. rewrite Hr. apply HA.
Qed.

Lemma eval_items_pure items w :
  Forall (fun kv => is_TimeTransform w kv.2) items →
  Forall (fun kv => pure_as_matrix user_as_matrix w kv.2) items →
  ∃ d, eval_items user_as_matrix items w = (Ok d, w)
       ∧ Forall2 (evaluates user_as_matrix w) items d.
Proof.
  induction items as [|[k v] items IH]; intros Hlive Hpure.
  - exists []. split; [reflexivity | constructor].
  - apply Forall_cons in Hlive as [Hv Hlive].
    apply Forall_cons in Hpure as [Hpv Hpure].
    destruct (IH Hlive Hpure) as (d & Hd & Hall).
    destruct (as_matrix_pure v (_current_time (self w)) w Hv Hpv)
      as [A HA].
    exists ((k, A) :: d). split.
    + simpl. unfold bind at 1. rewrite current_time_spec.
      unfold bind at 1. rewrite HA.
      unfold bind at 1. by rewrite Hd.
    + constructor; [by split | exact Hall].
Qed.

Lemma evaluates_keys w items (d : dict Matrix) :
  Forall2 (evaluates user_as_matrix w) items d → keys d = keys items.
Proof.
  unfold keys. induction 1 as [|[k v] [k' A] items d [Hk _] _ IH].
  - reflexivity.
  - rewrite !fmap_cons. simpl in *. by rewrite Hk, IH.
Qed.

Lemma evaluates_get w items (d : dict Matrix) key :
  Forall2 (evaluates user_as_matrix w) items d →
  match get items key with
  | Some v =>
      ∃ A, get d key = Some A
           ∧ as_matrix user_as_matrix v (_current_time (self w)) w
             = (Ok A, w)
  | None => get d key = None
  end.
Proof.
  induction 1 as [|[k v] [k' A] items d [Hk HA] _ IH]; simpl.
  - reflexivity.
  - simpl in Hk, HA. subst k'.
    destruct (decide (k = key)); [by exists A | exact IH].
Qed.

(** C8: when every stored transform is a [TimeTransform] whose
    [as_matrix] is pure, the property [transforms] returns a dictionary
    with exactly the registered keys, whose value at each key is the
    stored transform evaluated at the ambient time, and reading it
    changes nothing. *)
Theorem transforms_evaluates_every_edge w :
  stored_TimeTransforms w → stored_pure user_as_matrix w →
  ∃ d, transforms user_as_matrix w = (Ok d, w)
       ∧ keys d = keys (_transforms (self w))
       ∧ ∀ key v, get (_transforms (self w)) key = Some v →
           ∃ A, as_matrix user_as_matrix v (_current_time (self w)) w
                = (Ok A, w)
                ∧ get d key = Some A.
Proof.
  intros Hlive Hpure.
  destruct (eval_items_pure _ w Hlive Hpure) as (d & Hd & Hall).
  exists d. split_and!.
  - exact Hd.
  - by eapply evaluates_keys.
  - intros key v Hget.
    pose proof (evaluates_get w _ d key Hall) as Hkey.
    rewrite Hget in Hkey. destruct Hkey as (A & ? & ?). by exists A.
Qed.



(** *** The invariant of the edge map *)

(** No call removes an object from the heap. *)
Lemma run_keeps_objects c w r :
  admissible w c → is_Some (heap w !! r) →
  is_Some (heap (run user_check_transforms c w) !! r).
Proof.
  intros Hadm [o Hr].
  destruct c as [o'|key v|key|time|v]; simpl.
  - exists o. by apply lookup_app_l_Some.
  - rewrite _set_transform_spec. destruct v; simpl; [|by eauto].
    exists o. by apply lookup_app_l_Some.
  - unfold _del_transform, bind, get_self.
    destruct (del (_transforms (self w)) key); simpl; eauto.
  - eauto.
  - destruct v as [A|r']; [simpl; eauto|]. destruct Hadm as [A Hr'].
    rewrite (_check_transform_static _ _ _ Hr').
    destruct (check_transform A); simpl; [|by eauto].
    apply lookup_lt_is_Some. rewrite length_insert.
    by eapply lookup_lt_Some.
Qed.

Lemma is_TimeTransform_run c w v :
  admissible w c → is_TimeTransform w v →
  is_TimeTransform (run user_check_transforms c w) v.
Proof.
  intros Hadm (r & o & -> & Hr).
  destruct (run_keeps_objects c w r Hadm (ex_intro _ o Hr)) as [o' Hr'].
  by exists r, o'.
Qed.

(** Every call keeps the edge map full of [TimeTransform]s:
    [_set_transform] wraps a raw matrix before it stores it, and
    [_del_transform] only removes. *)
Lemma stored_TimeTransforms_run c w :
  admissible w c → stored_TimeTransforms w →
  stored_TimeTransforms (run user_check_transforms c w).
Proof.
  intros Hadm Hst. unfold stored_TimeTransforms in *.
  assert (Hold : Forall
            (fun kv => is_TimeTransform (run user_check_transforms c w) kv.2)
            (_transforms (self w))).
  { eapply Forall_impl; [exact Hst|]. intros kv.
    by apply is_TimeTransform_run. }
  destruct c as [o'|key v|key|time|v]; simpl in *.
  - exact Hold.
  - rewrite _set_transform_spec in *. destruct v as [A|r]; simpl in *.
    + apply Forall_set; [exact Hold|]. simpl.
      exists (length (heap w)), (StaticTransform A). split; [done|].
      apply StaticTransform__init___spec; exact w.
    + apply Forall_set; [exact Hold|]. simpl.
      destruct (lookup_lt_is_Some_2 _ _ Hadm) as [o Ho]. by exists r, o.
  - revert Hold. unfold _del_transform, bind, get_self.
    destruct (del (_transforms (self w)) key) as [d|] eqn:Hdel; simpl.
    + intros Hold. by eapply Forall_del.
    + done.
  - exact Hold.
  - revert Hold. destruct v as [A|r]; [done|]. destruct Hadm as [A Hr].
    rewrite (_check_transform_static _ _ _ Hr).
    by destruct (check_transform A).
Qed.

Lemma reachable_run_all cs w :
  reachable user_check_transforms w →
  admissible_all user_check_transforms w cs →
  reachable user_check_transforms (run_all user_check_transforms cs w).
Proof.
  revert w. induction cs as [|c cs IH]; simpl; intros w Hw Hadm.
  - exact Hw.
  - destruct Hadm as [Hc Hcs]. apply IH; [|exact Hcs].
    by apply reachable_call.
Qed.

(** C10: in every world a client can reach, each value held by the edge
    map is an instance of [TimeTransform], so that the attribute lookup
    of [as_matrix] on it, as made by [transforms] and [_get_transform],
    succeeds. *)
Theorem stored_values_are_TimeTransforms w :
  reachable user_check_transforms w →
  stored_TimeTransforms w
  ∧ Forall (fun kv => ∃ r o, kv.2 = PyRef r ∧ deref kv.2 w = (Ok (r, o), w))
           (_transforms (self w)).
Proof.
  intros Hreach.
  assert (Hst : stored_TimeTransforms w).
  { induction Hreach as [h strict check|w c _ IH Hadm].
    - constructor.
    - by apply stored_TimeTransforms_run. }
  split; [exact Hst|].
  eapply Forall_impl; [exact Hst|].
  intros [k v] (r & o & -> & Hr). exists r, o. split; [done|].
  unfold deref. simpl. by rewrite Hr.
Qed.

End Properties.

(** ** The scene *)

(** The scenarios of the specification, on the modelled [get_transform]. *)
Example scene_world_to_sensor :
  (Scene.get_transform Scene.world Scene.sensor Scene.scene).1
  = Ok (Scene.translate 1 0 0).
Proof. vm_compute. reflexivity. Qed.

Example scene_sensor_to_world :
  (Scene.get_transform Scene.sensor Scene.world Scene.scene).1
  = Ok (Scene.translate (-1) 0 0).
Proof. vm_compute. reflexivity. Qed.

Example scene_frame_to_itself :
  (Scene.get_transform Scene.island Scene.island Scene.empty_world).1
  = Ok (Scene.eye 4).
Proof. vm_compute. reflexivity. Qed.

Example scene_joint_in_time :
  Scene.get_transform_in_time Scene.tool Scene.sensor 0%float Scene.scene
  = (Ok (Scene.eye 4), Scene.scene)
  ∧ Scene.get_transform_in_time Scene.tool Scene.sensor 90%float Scene.scene
    = (Ok Scene.quarter_turn, Scene.scene).
Proof. split; reflexivity. Qed.

(** The check rejects a matrix that scales: the exception leaves the
    object as it was, and the call is on record. *)
Example scene_check_rejects_scaling :
  let w := (StaticTransform__init__ Scene.scaling Scene.empty_world).2 in
  (Scene._check_transform (PyRef 0) w).1 = Raise InvalidTransformError
  ∧ heap (Scene._check_transform (PyRef 0) w).2 = heap w
  ∧ checked (Scene._check_transform (PyRef 0) w).2 = [Scene.scaling].
Proof. split_and!; reflexivity. Qed.

(** A raw matrix handed to the check has no [check_transforms]. *)
Example scene_check_raw_matrix :
  (Scene._check_transform (PyMatrix (Scene.eye 4)) Scene.empty_world).1
  = Raise AttributeError.
Proof. reflexivity. Qed.

Lemma five_is_not_zero : 5%float ≠ 0%float.
Proof.
  intros Heq.
  apply (f_equal (fun t => PrimFloat.eqb t 0%float)) in Heq.
  vm_compute in Heq. discriminate.
Qed.

(** C1: the ambient time is not put back when the inner [get_transform]
    raises.  In the scene the ambient time is [0.0]; the query from
    [world] to the unconnected [island] at time [5.0] raises, and
    afterwards [current_time] reads [5.0]. *)
Theorem get_transform_in_time_keeps_override_on_error :
  current_time Scene.scene = (Ok 0%float, Scene.scene)
  ∧ (Scene.get_transform_in_time Scene.world Scene.island 5%float
       Scene.scene).1 = Raise NoPathError
  ∧ (current_time
       (Scene.get_transform_in_time Scene.world Scene.island 5%float
          Scene.scene).2).1 = Ok 5%float
  ∧ 5%float ≠ 0%float.
Proof.
  split_and!; [reflexivity.. | exact five_is_not_zero].
Qed.

Lemma scene_stored_TimeTransforms : stored_TimeTransforms Scene.scene.
Proof.
  repeat constructor; simpl; eexists _, _; split; reflexivity.
Qed.

Lemma scene_stored_pure : stored_pure Scene.Joint_as_matrix Scene.scene.
Proof.
  repeat constructor; intros r u _ _ t; eexists; intros w'; reflexivity.
Qed.

Lemma StaticTransform_as_matrix_constant_witness :
  heap Scene.scene !! 1 = Some (StaticTransform (Scene.translate 1 0 0))
  ∧ Scene.as_matrix (PyRef 1) 7%float Scene.scene
    = (Ok (Scene.translate 1 0 0), Scene.scene)
  ∧ ∀ time', Scene.as_matrix (PyRef 1) time' Scene.scene
             = Scene.as_matrix (PyRef 1) 7%float Scene.scene.
Proof.
  split; [reflexivity|].
  apply (StaticTransform_as_matrix_constant Scene.Joint_as_matrix
           (Scene.translate 1 0 0) 1 7%float Scene.scene).
  reflexivity.
Defined.

Lemma StaticTransform_check_transforms_once_witness :
  heap Scene.scene !! 1 = Some (StaticTransform (Scene.translate 1 0 0))
  ∧ check_transform (Scene.translate 1 0 0) = Ok (Scene.translate 1 0 0)
  ∧ ∃ w', Scene._check_transform (PyRef 1) Scene.scene = (Ok (PyRef 1), w')
      ∧ checked w' = [Scene.translate 1 0 0]
      ∧ heap w' = <[1 := StaticTransform (Scene.translate 1 0 0)]>
                    (heap Scene.scene)
      ∧ self w' = self Scene.scene
      ∧ ∀ time, Scene.as_matrix (PyRef 1) time w'
                = (Ok (Scene.translate 1 0 0), w').
Proof.
  split; [reflexivity|]. split; [reflexivity|].
  apply (StaticTransform_check_transforms_once
           Scene.Joint_as_matrix Scene.Joint_check_transforms
           (Scene.translate 1 0 0) (Scene.translate 1 0 0) 1 Scene.scene);
    reflexivity.
Defined.

Lemma _transform_available_exact_key_witness :
  _transform_available (Scene.world, Scene.world) Scene.scene
  = (Ok false, Scene.scene)
  ∧ _transform_available (Scene.robot, Scene.sensor) Scene.scene
    = (Ok true, Scene.scene)
  ∧ Scene.world ≠ Scene.robot
  ∧ ((Scene.robot, Scene.world)
     ∉ keys (_transforms (self Scene.empty_world)))
  ∧ (_transform_available (Scene.world, Scene.robot)
       (_set_transform (Scene.world, Scene.robot) (PyMatrix (Scene.eye 4))
          Scene.empty_world).2).1 = Ok true
  ∧ (_transform_available (Scene.robot, Scene.world)
       (_set_transform (Scene.world, Scene.robot) (PyMatrix (Scene.eye 4))
          Scene.empty_world).2).1 = Ok false.
Proof.
  assert (Hne : Scene.world ≠ Scene.robot) by discriminate.
  assert (Hfree : (Scene.robot, Scene.world)
                  ∉ keys (_transforms (self Scene.empty_world)))
    by (intros Hin; by apply elem_of_nil in Hin).
  destruct (_transform_available_exact_key Scene.world Scene.world
              (PyMatrix (H := Scene.Ztransformations) (Scene.eye 4))
              Scene.scene) as [(b & Hloop & Hb) _].
  assert (Hout : (Scene.world, Scene.world)
                 ∉ keys (_transforms (self Scene.scene)))
    by (apply (bool_decide_unpack _); reflexivity).
  assert (b = false) as ->
    by (destruct b; [by destruct Hout; apply Hb | done]).
  destruct (_transform_available_exact_key Scene.robot Scene.sensor
              (PyMatrix (H := Scene.Ztransformations) (Scene.eye 4))
              Scene.scene) as [(b' & Hedge & Hb') _].
  assert (Hin : (Scene.robot, Scene.sensor)
                ∈ keys (_transforms (self Scene.scene)))
    by (apply (bool_decide_unpack _); reflexivity).
  apply Hb' in Hin as ->.
  destruct (_transform_available_exact_key Scene.world Scene.robot
              (PyMatrix (H := Scene.Ztransformations) (Scene.eye 4))
              Scene.empty_world) as (_ & Hnew & _ & Hrev).
  split_and!; [exact Hloop | exact Hedge | exact Hne | exact Hfree
              | exact Hnew | exact (Hrev Hne Hfree)].
Defined.


Lemma transforms_evaluates_every_edge_witness :
  stored_TimeTransforms Scene.scene
  ∧ stored_pure Scene.Joint_as_matrix Scene.scene
  ∧ ∃ d, Scene.transforms Scene.scene = (Ok d, Scene.scene)
         ∧ keys d = [(Scene.world, Scene.robot); (Scene.robot, Scene.sensor);
                     (Scene.tool, Scene.sensor)].
Proof.
  split; [exact scene_stored_TimeTransforms|].
  split; [exact scene_stored_pure|].
  destruct (transforms_evaluates_every_edge Scene.Joint_as_matrix Scene.scene
              scene_stored_TimeTransforms scene_stored_pure)
    as (d & Hd & Hkeys & _).
  exists d. split; [exact Hd | exact Hkeys].
Defined.



Lemma scene_reachable :
  reachable Scene.Joint_check_transforms Scene.scene.
Proof.
  apply reachable_run_all; [apply reachable_init|].
  repeat split. apply Nat.ltb_lt. reflexivity.
Qed.

Lemma stored_values_are_TimeTransforms_witness :
  reachable Scene.Joint_check_transforms Scene.scene
  ∧ stored_TimeTransforms Scene.scene.
Proof.
  split; [exact scene_reachable|].
  apply (stored_values_are_TimeTransforms Scene.Joint_check_transforms
           Scene.scene scene_reachable).
Defined.

(** * Further properties of the hooks *)

(** ** More facts about dictionaries *)
Module DictMore.
Section Facts.

Context {V : Type}.
Implicit Types (d : dict V) (k : Key) (v : V).

Lemma contains_false_keys d k : contains d k = false ↔ k ∉ keys d.
Proof.
  rewrite <- contains_keys. destruct (contains d k); split; congruence.
Qed.

Lemma keys_cons d k v : keys ((k, v) :: d) = k :: keys d.
Proof. reflexivity. Qed.

Lemma keys_set d k v :
  keys (set d k v) = if contains d k then keys d else keys d ++ [k].
Proof.
  induction d as [|[k' v'] d IH]; cbn [set contains].
  - reflexivity.
  - destruct (decide (k' = k)) as [->|Hne].
    + by rewrite !keys_cons.
    + rewrite !keys_cons, IH. by destruct (contains d k).
Qed.

Lemma NoDup_keys_set d k v : NoDup (keys d) → NoDup (keys (set d k v)).
Proof.
  intros Hnd. rewrite keys_set.
  destruct (contains d k) eqn:Hc; [exact Hnd|].
  apply NoDup_app. split_and!; [exact Hnd| |apply NoDup_singleton].
  intros k' Hin Hk. apply list_elem_of_singleton in Hk as ->.
  by apply contains_false_keys in Hc.
Qed.

Lemma del_None d k : del d k = None ↔ contains d k = false.
Proof.
  induction d as [|[k' v'] d IH]; simpl.
  - done.
  - destruct (decide (k' = k)); [done|].
    rewrite <- IH. by destruct (del d k).
Qed.

Lemma del_Some d k :
  contains d k = true → ∃ d', del d k = Some d'.
Proof.
  intros Hc. destruct (del d k) as [d'|] eqn:Hdel; [by exists d'|].
  apply del_None in Hdel. congruence.
Qed.

Lemma get_del_ne d d' k k' :
  del d k = Some d' → k' ≠ k → get d' k' = get d k'.
Proof.
  revert d'. induction d as [|[k0 v0] d IH]; simpl; intros d' Hdel Hne.
  - discriminate.
  - destruct (decide (k0 = k)) as [->|Hne0].
    + injection Hdel as <-. by rewrite decide_False.
    + destruct (del d k) as [d''|]; [|discriminate].
      injection Hdel as <-. simpl.
      destruct (decide (k0 = k')); [done | by apply IH].
Qed.

Lemma keys_del d d' k :
  del d k = Some d' → ∀ k', k' ∈ keys d' → k' ∈ keys d.
Proof.
  revert d'.
  induction d as [|[k0 v0] d IH]; cbn [del]; intros d' Hdel k' Hin.
  - discriminate.
  - rewrite keys_cons. destruct (decide (k0 = k)) as [->|Hne0].
    + injection Hdel as <-. apply elem_of_cons. by right.
    + destruct (del d k) as [d''|]; [|discriminate].
      injection Hdel as <-. rewrite keys_cons in Hin.
      apply elem_of_cons in Hin as [->|Hin]; apply elem_of_cons; eauto.
Qed.

Lemma NoDup_keys_del d d' k :
  NoDup (keys d) → del d k = Some d' →
  NoDup (keys d') ∧ contains d' k = false.
Proof.
  revert d'.
  induction d as [|[k0 v0] d IH]; cbn [del]; intros d' Hnd Hdel.
  - discriminate.
  - rewrite keys_cons in Hnd. apply NoDup_cons in Hnd as [Hk0 Hnd].
    destruct (decide (k0 = k)) as [->|Hne0].
    + injection Hdel as <-. split; [exact Hnd|].
      by apply contains_false_keys.
    + destruct (del d k) as [d''|] eqn:Hd; [|discriminate].
      injection Hdel as <-. destruct (IH d'' Hnd eq_refl) as [Hnd' Hc].
      split.
      * rewrite keys_cons. apply NoDup_cons. split; [|exact Hnd'].
        intros Hin. apply Hk0. by eapply (keys_del d d'' k).
      * cbn [contains]. by rewrite decide_False.
Qed.

(** Deleting a key that was just added restores the dictionary. *)
Lemma del_set_fresh d k v : contains d k = false → del (set d k v) k = Some d.
Proof.
  induction d as [|[k' v'] d IH]; simpl; intros Hc.
  - by rewrite decide_True.
  - destruct (decide (k' = k)); [discriminate|]. simpl.
    rewrite decide_False by done. by rewrite (IH Hc).
Qed.

End Facts.
End DictMore.
Import DictMore.

(** ** The hooks, for every instance of the interface *)
Section MoreProperties.

Context `{Transformations} {UserObj : Type}.
Variable user_as_matrix : UserObj → ref → Time → M (UserObj := UserObj) Matrix.
Variable user_check_transforms : UserObj → ref → M (UserObj := UserObj) pyval.
Variable get_transform : Frame → Frame → M (UserObj := UserObj) Matrix.

Implicit Types (w : World (UserObj := UserObj)) (v : pyval) (r : ref).
Implicit Types (key : Key) (time : Time) (A : Matrix).

(** *** [get_transform_in_time] *)

(** Setting the time to what it already is changes nothing. *)
Lemma set_time_current w : (set_time (_current_time (self w)) w).2 = w.
Proof. by destruct w as [h [d t s c] l]. Qed.

(** X1: when the inherited [get_transform] returns, so does
    [get_transform_in_time], with the same matrix; afterwards
    [current_time] reads what it read before the call, even if
    [get_transform] changed it, and the rest of the world is as
    [get_transform] left it. *)
Theorem get_transform_in_time_restores_ambient_time
    from_frame to_frame time w A w1 :
  get_transform from_frame to_frame (set_time time w).2 = (Ok A, w1) →
  ∃ w', get_transform_in_time get_transform from_frame to_frame time w
        = (Ok A, w')
    ∧ current_time w' = (Ok (_current_time (self w)), w')
    ∧ heap w' = heap w1
    ∧ _transforms (self w') = _transforms (self w1)
    ∧ checked w' = checked w1.
Proof.
  intros Hget. eexists. split.
  - unfold get_transform_in_time, bind, get_self. simpl in *.
    rewrite Hget. reflexivity.
  - by split_and!.
Qed.

(** X2: when the inherited [get_transform] raises, the same exception
    leaves [get_transform_in_time], and the world is exactly the one
    [get_transform] left: nothing more is run. *)
Theorem get_transform_in_time_propagates_exception
    from_frame to_frame time w e w1 :
  get_transform from_frame to_frame (set_time time w).2 = (Raise e, w1) →
  get_transform_in_time get_transform from_frame to_frame time w
  = (Raise e, w1)
  ∧ (_current_time (self w1) = time →
     current_time (get_transform_in_time get_transform
                     from_frame to_frame time w).2 = (Ok time, w1)).
Proof.
  intros Hget.
  assert (Hrun : get_transform_in_time get_transform from_frame to_frame
                   time w = (Raise e, w1)).
  { unfold get_transform_in_time, bind, get_self. simpl in *.
    by rewrite Hget. }
  split; [exact Hrun|]. intros Ht. rewrite Hrun. simpl.
  rewrite current_time_spec. by rewrite Ht.
Qed.

(** X3: a query at the ambient time gives what [get_transform] gives. *)
Theorem get_transform_in_time_at_ambient_time from_frame to_frame w :
  (get_transform_in_time get_transform from_frame to_frame
     (_current_time (self w)) w).1
  = (get_transform from_frame to_frame w).1.
Proof.
  destruct (get_transform from_frame to_frame
              (set_time (_current_time (self w)) w).2)
    as [[A|e] w1] eqn:Hget.
  - rewrite (get_transform_in_time_returns _ _ _ _ _ _ _ Hget).
    rewrite set_time_current in Hget. by rewrite Hget.
  - rewrite (get_transform_in_time_raises _ _ _ _ _ _ _ Hget).
    rewrite set_time_current in Hget. by rewrite Hget.
Qed.

(** *** Preservation of well-formedness *)

Lemma get_elem_of {V} (d : dict V) key (x : V) :
  get d key = Some x → (key, x) ∈ d.
Proof.
  induction d as [|[k' v'] d IH]; simpl; [discriminate|].
  destruct (decide (k' = key)) as [->|Hne].
  - intros [= ->]. apply elem_of_cons. by left.
  - intros Hget. apply elem_of_cons. right. by apply IH.
Qed.

(** Purity of [as_matrix] concerns the instances of users' subclasses
    only: it carries over to a world with no other such instances. *)
Lemma pure_as_matrix_heap w w2 v :
  (∀ r u, heap w2 !! r = Some (UserTransform u) →
          heap w !! r = Some (UserTransform u)) →
  pure_as_matrix user_as_matrix w v → pure_as_matrix user_as_matrix w2 v.
Proof. intros Hh Hp r u -> Hr. exact (Hp r u eq_refl (Hh r u Hr)). Qed.

Lemma stored_pure_heap w w2 :
  _transforms (self w2) = _transforms (self w) →
  (∀ r u, heap w2 !! r = Some (UserTransform u) →
          heap w !! r = Some (UserTransform u)) →
  stored_pure user_as_matrix w → stored_pure user_as_matrix w2.
Proof.
  unfold stored_pure. intros -> Hh Hp.
  eapply Forall_impl; [exact Hp|]. intros kv. by apply pure_as_matrix_heap.
Qed.

Lemma user_lookup_app (h : list (TimeTransform (UserObj := UserObj))) A r u :
  (h ++ [StaticTransform A]) !! r = Some (UserTransform u) →
  h !! r = Some (UserTransform u).
Proof.
  intros Hr. destruct (decide (r < length h)) as [Hlt|Hge].
  - by rewrite lookup_app_l in Hr.
  - rewrite lookup_app_r in Hr by lia.
    destruct (r - length h) as [|n]; simpl in Hr; discriminate.
Qed.

Lemma user_lookup_insert (h : list (TimeTransform (UserObj := UserObj)))
    A r0 r u :
  (<[r0 := StaticTransform A]> h) !! r = Some (UserTransform u) →
  h !! r = Some (UserTransform u).
Proof.
  intros Hr. destruct (decide (r0 = r)) as [->|Hne].
  - destruct (decide (r < length h)) as [Hlt|Hge].
    + rewrite list_lookup_insert_eq in Hr by done. discriminate.
    + by rewrite list_insert_ge in Hr by lia.
  - by rewrite list_lookup_insert_ne in Hr.
Qed.

Lemma stored_pure_set_raw key A w :
  stored_pure user_as_matrix w →
  stored_pure user_as_matrix (_set_transform key (PyMatrix A) w).2.
Proof.
  intros Hp. rewrite _set_transform_spec. unfold stored_pure in *. simpl.
  apply Forall_set.
  - eapply Forall_impl; [exact Hp|]. intros kv.
    apply pure_as_matrix_heap. simpl. intros r u. apply user_lookup_app.
  - simpl. intros r u [= <-] Hr. simpl in Hr.
    rewrite lookup_app_r, Nat.sub_diag in Hr by lia. discriminate.
Qed.

Lemma stored_pure_set_time time w :
  stored_pure user_as_matrix w →
  stored_pure user_as_matrix (set_time time w).2.
Proof. by apply stored_pure_heap. Qed.

Lemma stored_TimeTransforms_set_raw key A w :
  stored_TimeTransforms w →
  stored_TimeTransforms (_set_transform key (PyMatrix A) w).2.
Proof.
  exact (stored_TimeTransforms_run (fun _ _ => raise UserError)
           (SetTransform key (PyMatrix A)) w I).
Qed.

Lemma stored_TimeTransforms_set_time time w :
  stored_TimeTransforms w → stored_TimeTransforms (set_time time w).2.
Proof.
  exact (stored_TimeTransforms_run (fun _ _ => raise UserError)
           (SetTime time) w I).
Qed.

(** *** Reading one edge *)

(** Under the purity assumption, [_get_transform] returns what the stored
    transform evaluates to, and raises [KeyError] for a missing key. *)
Lemma _get_transform_value key w v A :
  stored_TimeTransforms w → stored_pure user_as_matrix w →
  get (_transforms (self w)) key = Some v →
  as_matrix user_as_matrix v (_current_time (self w)) w = (Ok A, w) →
  _get_transform user_as_matrix key w = (Ok A, w).
Proof.
  intros Hlive Hpure Hget HA.
  destruct (eval_items_pure user_as_matrix _ w Hlive Hpure) as (d & Hd & Hall).
  pose proof (evaluates_get user_as_matrix w _ d key Hall) as Hkey.
  rewrite Hget in Hkey. destruct Hkey as (A' & Hd' & HA').
  rewrite HA in HA'. injection HA' as <-.
  unfold _get_transform, transforms, bind at 1 2, get_self.
  by rewrite Hd, Hd'.
Qed.

(** X4: [_get_transform] of a key that is not registered raises
    [KeyError] and changes nothing. *)
Theorem _get_transform_missing_key key w :
  stored_TimeTransforms w → stored_pure user_as_matrix w →
  contains (_transforms (self w)) key = false →
  _get_transform user_as_matrix key w = (Raise KeyError, w).
Proof.
  intros Hlive Hpure Hc.
  assert (Hget : get (_transforms (self w)) key = None).
  { destruct (get (_transforms (self w)) key) as [v|] eqn:Hg; [|done].
    assert (contains (_transforms (self w)) key = true)
      by (apply contains_get; eauto).
    congruence. }
  destruct (eval_items_pure user_as_matrix _ w Hlive Hpure) as (d & Hd & Hall).
  pose proof (evaluates_get user_as_matrix w _ d key Hall) as Hkey.
  rewrite Hget in Hkey.
  unfold _get_transform, transforms, bind at 1 2, get_self.
  by rewrite Hd, Hkey.
Qed.

(** X5: a raw matrix registered with [_set_transform] is what
    [_get_transform] returns for that key, whatever the ambient time is
    set to afterwards. *)
Theorem _set_transform_then_get_transform key A time w :
  stored_TimeTransforms w → stored_pure user_as_matrix w →
  _get_transform user_as_matrix key (_set_transform key (PyMatrix A) w).2
  = (Ok A, (_set_transform key (PyMatrix A) w).2)
  ∧ _get_transform user_as_matrix key
      (set_time time (_set_transform key (PyMatrix A) w).2).2
    = (Ok A, (set_time time (_set_transform key (PyMatrix A) w).2).2).
Proof.
  intros Hlive Hpure.
  pose proof (stored_TimeTransforms_set_raw key A w Hlive) as Hlive1.
  pose proof (stored_pure_set_raw key A w Hpure) as Hpure1.
  pose proof (stored_TimeTransforms_set_time time _ Hlive1) as Hlive2.
  pose proof (stored_pure_set_time time _ Hpure1) as Hpure2.
  split.
  - eapply _get_transform_value; [exact Hlive1 | exact Hpure1 | |].
    + rewrite _set_transform_spec. simpl. apply get_set_eq.
    + apply as_matrix_static. rewrite _set_transform_spec. simpl.
      apply StaticTransform__init___spec; exact w.
  - eapply _get_transform_value; [exact Hlive2 | exact Hpure2 | |].
    + rewrite _set_transform_spec. simpl. apply get_set_eq.
    + apply as_matrix_static. rewrite _set_transform_spec. simpl.
      apply StaticTransform__init___spec; exact w.
Qed.

(** X6: an edge that holds an instance of a user's subclass is evaluated
    at the ambient time: after [set_time(t)], [_get_transform] returns
    what the instance's [as_matrix] returns at [t]. *)
Theorem _get_transform_evaluates_at_ambient_time key r u time w :
  stored_TimeTransforms w → stored_pure user_as_matrix w →
  get (_transforms (self w)) key = Some (PyRef r) →
  heap w !! r = Some (UserTransform u) →
  ∃ A, (∀ w', user_as_matrix u r time w' = (Ok A, w'))
       ∧ _get_transform user_as_matrix key (set_time time w).2
         = (Ok A, (set_time time w).2).
Proof.
  intros Hlive Hpure Hget Hr.
  assert (Hp : pure_as_matrix user_as_matrix w (PyRef r)).
  { unfold stored_pure in Hpure. rewrite Forall_forall in Hpure.
    exact (Hpure _ (get_elem_of _ _ _ Hget)). }
  destruct (Hp r u eq_refl Hr time) as [A HA]. exists A. split; [exact HA|].
  pose proof (stored_TimeTransforms_set_time time w Hlive) as Hlive2.
  pose proof (stored_pure_set_time time w Hpure) as Hpure2.
  eapply _get_transform_value; [exact Hlive2 | exact Hpure2 | exact Hget |].
  unfold as_matrix, bind, deref. simpl. rewrite Hr. apply HA.
Qed.

(** *** Removing and replacing edges *)

Lemma _del_transform_spec key w :
  _del_transform key w
  = match del (_transforms (self w)) key with
    | Some d => (Ok tt,
                 mkWorld (heap w)
                   (mkManager d (_current_time (self w))
                              (strict_check (self w)) (check (self w)))
                   (checked w))
    | None => (Raise KeyError, w)
    end.
Proof.
  unfold _del_transform, bind, get_self.
  by destruct (del (_transforms (self w)) key).
Qed.

(** The edge map of a reachable world has one item per key. *)
Lemma reachable_NoDup w :
  reachable user_check_transforms w → NoDup (keys (_transforms (self w))).
Proof.
  induction 1 as [h strict check|w c _ IH Hadm].
  - apply NoDup_nil_2.
  - destruct c as [o|key v|key|time|v]; simpl.
    + exact IH.
    + rewrite _set_transform_spec. destruct v; simpl; by apply NoDup_keys_set.
    + rewrite _del_transform_spec.
      destruct (del (_transforms (self w)) key) as [d|] eqn:Hdel; simpl.
      * by destruct (NoDup_keys_del _ _ _ IH Hdel).
      * exact IH.
    + exact IH.
    + destruct v as [A|r]; [exact IH|]. destruct Hadm as [A Hr].
      rewrite (_check_transform_static _ _ _ _ Hr).
      by destruct (check_transform A).
Qed.

(** X7: in a reachable world, [_del_transform] of a registered key
    returns; afterwards the key is no longer available, every other edge
    holds what it held, and the objects, the time and the flags are
    untouched. *)
Theorem _del_transform_removes_edge key w :
  reachable user_check_transforms w →
  contains (_transforms (self w)) key = true →
  ∃ w', _del_transform key w = (Ok tt, w')
    ∧ _transform_available key w' = (Ok false, w')
    ∧ (∀ key', key' ≠ key →
         get (_transforms (self w')) key' = get (_transforms (self w)) key')
    ∧ heap w' = heap w
    ∧ _current_time (self w') = _current_time (self w)
    ∧ strict_check (self w') = strict_check (self w)
    ∧ check (self w') = check (self w)
    ∧ checked w' = checked w.
Proof.
  intros Hreach Hc. pose proof (reachable_NoDup w Hreach) as Hnd.
  destruct (del_Some _ _ Hc) as [d Hdel].
  destruct (NoDup_keys_del _ _ _ Hnd Hdel) as [_ Hgone].
  eexists. split; [by rewrite _del_transform_spec, Hdel|].
  split_and!; try reflexivity.
  - rewrite _transform_available_spec. simpl. by rewrite Hgone.
  - intros key' Hne. simpl. by eapply get_del_ne.
Qed.

(** X8: [_del_transform] of a key that is not registered raises
    [KeyError] and changes nothing. *)
Theorem _del_transform_missing_key key w :
  contains (_transforms (self w)) key = false →
  _del_transform key w = (Raise KeyError, w).
Proof.
  intros Hc. apply del_None in Hc. by rewrite _del_transform_spec, Hc.
Qed.

(** X9: [_set_transform] touches one edge only: every other key holds
    what it held, the time and the flags stay, no object that existed is
    changed, and the external check is not called. *)
Theorem _set_transform_frame key key' v w :
  key' ≠ key →
  get (_transforms (self (_set_transform key v w).2)) key'
  = get (_transforms (self w)) key'
  ∧ _current_time (self (_set_transform key v w).2) = _current_time (self w)
  ∧ strict_check (self (_set_transform key v w).2) = strict_check (self w)
  ∧ check (self (_set_transform key v w).2) = check (self w)
  ∧ checked (_set_transform key v w).2 = checked w
  ∧ ∀ r o, heap w !! r = Some o →
           heap (_set_transform key v w).2 !! r = Some o.
Proof.
  intros Hne. rewrite _set_transform_spec.
  destruct v as [A|r0]; simpl; split_and!; try reflexivity;
    try (by apply get_set_ne); try done.
  intros r o Hr. by apply lookup_app_l_Some.
Qed.

(** X10: registering an edge under a key that was free and removing it
    again puts the manager back as it was. *)
Theorem _set_transform_then_del_transform key v w :
  contains (_transforms (self w)) key = false →
  (_set_transform key v w).1 = Ok tt
  ∧ (_del_transform key (_set_transform key v w).2).1 = Ok tt
  ∧ self (_del_transform key (_set_transform key v w).2).2 = self w.
Proof.
  intros Hc. rewrite _set_transform_spec, _del_transform_spec.
  destruct w as [h [d t s c] l]. simpl in *.
  destruct v as [A|r]; simpl; rewrite (del_set_fresh _ _ _ Hc); done.
Qed.

(** X11: the key list after [_set_transform]: a key that was registered
    keeps its place, a new key goes to the end; no other key moves. *)
Theorem _set_transform_keeps_registration_order key v w :
  keys (_transforms (self (_set_transform key v w).2))
  = if contains (_transforms (self w)) key
    then keys (_transforms (self w))
    else keys (_transforms (self w)) ++ [key].
Proof.
  rewrite _set_transform_spec. destruct v; simpl; apply keys_set.
Qed.

(** *** Objects and their identity *)

(** X12: [StaticTransform(A)] makes a new object: its reference was not
    in use, the objects that existed and the manager are untouched, and
    its [as_matrix] returns [A] at every time. *)
Theorem StaticTransform__init___fresh_object A w :
  ∃ r w', StaticTransform__init__ A w = (Ok (PyRef r), w')
    ∧ heap w !! r = None
    ∧ (∀ r' o, heap w !! r' = Some o → heap w' !! r' = Some o)
    ∧ self w' = self w
    ∧ checked w' = checked w
    ∧ ∀ time, as_matrix user_as_matrix (PyRef r) time w' = (Ok A, w').
Proof.
  exists (length (heap w)). eexists. split; [reflexivity|].
  split_and!; try reflexivity.
  - by apply lookup_ge_None.
  - intros r' o Hr. simpl. by apply lookup_app_l_Some.
  - intros time. apply as_matrix_static. simpl.
    apply StaticTransform__init___spec; exact w.
Qed.

(** X13: two raw matrices registered one after the other are wrapped in
    two different objects, each holding its own matrix. *)
Theorem _set_transform_wraps_in_distinct_objects key1 key2 A B w :
  key1 ≠ key2 →
  ∃ r1 r2,
    get (_transforms (self (_set_transform key2 (PyMatrix B)
                              (_set_transform key1 (PyMatrix A) w).2).2))
        key1 = Some (PyRef r1)
    ∧ get (_transforms (self (_set_transform key2 (PyMatrix B)
                                (_set_transform key1 (PyMatrix A) w).2).2))
          key2 = Some (PyRef r2)
    ∧ r1 ≠ r2
    ∧ heap (_set_transform key2 (PyMatrix B)
              (_set_transform key1 (PyMatrix A) w).2).2 !! r1
      = Some (StaticTransform A)
    ∧ heap (_set_transform key2 (PyMatrix B)
              (_set_transform key1 (PyMatrix A) w).2).2 !! r2
      = Some (StaticTransform B).
Proof.
  intros Hne. exists (length (heap w)), (S (length (heap w))).
  rewrite !_set_transform_spec. simpl. split_and!.
  - rewrite get_set_ne by done. apply get_set_eq.
  - rewrite length_app. simpl. rewrite Nat.add_1_r. apply get_set_eq.
  - lia.
  - rewrite lookup_app_l by (rewrite length_app; simpl; lia).
    apply StaticTransform__init___spec; exact w.
  - rewrite lookup_app_r by (rewrite length_app; simpl; lia).
    rewrite length_app. simpl.
    by replace (S (length (heap w)) - (length (heap w) + 1)) with 0 by lia.
Qed.

(** X14: the edge map holds references: when the [StaticTransform] at
    [r] is checked and its matrix replaced, every edge that holds [r]
    returns the checked matrix from then on. *)
Theorem _check_transform_reaches_every_edge key r A A' w :
  stored_TimeTransforms w → stored_pure user_as_matrix w →
  heap w !! r = Some (StaticTransform A) →
  check_transform A = Ok A' →
  get (_transforms (self w)) key = Some (PyRef r) →
  ∃ w', _check_transform user_check_transforms (PyRef r) w
        = (Ok (PyRef r), w')
    ∧ _get_transform user_as_matrix key w' = (Ok A', w').
Proof.
  intros Hlive Hpure Hr Hcheck Hget.
  pose proof (stored_TimeTransforms_run user_check_transforms
                (CheckTransform (PyRef r)) w (ex_intro _ A Hr) Hlive)
    as Hlive'.
  simpl in Hlive'. revert Hlive'.
  rewrite (_check_transform_static _ _ _ _ Hr), Hcheck. intros Hlive'.
  eexists. split; [reflexivity|].
  eapply _get_transform_value; [exact Hlive' | | exact Hget |].
  - apply (stored_pure_heap w); [reflexivity | | exact Hpure].
    simpl. intros r0 u. apply user_lookup_insert.
  - apply as_matrix_static. simpl.
    apply list_lookup_insert_eq. by eapply lookup_lt_Some.
Qed.

(** X15: when the external check rejects the matrix of a
    [StaticTransform], the exception leaves [_check_transform]; the
    object keeps its matrix, the manager is untouched, and the call is on
    record. *)
Theorem _check_transform_rejected A e r w :
  heap w !! r = Some (StaticTransform A) →
  check_transform A = Raise e →
  ∃ w', _check_transform user_check_transforms (PyRef r) w = (Raise e, w')
    ∧ heap w' = heap w
    ∧ self w' = self w
    ∧ checked w' = checked w ++ [A]
    ∧ ∀ time, as_matrix user_as_matrix (PyRef r) time w' = (Ok A, w').
Proof.
  intros Hr Hcheck. eexists. split.
  - rewrite (_check_transform_static _ _ _ _ Hr), Hcheck. reflexivity.
  - split_and!; try reflexivity. intros time. by apply as_matrix_static.
Qed.

End MoreProperties.

(** ** The further properties on the scene *)

Lemma get_transform_in_time_restores_ambient_time_witness :
  Scene.get_transform Scene.world Scene.sensor
    (set_time 2%float Scene.scene).2
  = (Ok (Scene.translate 1 0 0), (set_time 2%float Scene.scene).2)
  ∧ ∃ w', Scene.get_transform_in_time Scene.world Scene.sensor 2%float
            Scene.scene = (Ok (Scene.translate 1 0 0), w')
      ∧ current_time w' = (Ok 0%float, w')
      ∧ heap w' = heap Scene.scene
      ∧ _transforms (self w') = _transforms (self Scene.scene)
      ∧ checked w' = checked Scene.scene.
Proof.
  split; [reflexivity|].
  apply (get_transform_in_time_restores_ambient_time Scene.get_transform
           Scene.world Scene.sensor 2%float Scene.scene
           (Scene.translate 1 0 0) (set_time 2%float Scene.scene).2).
  reflexivity.
Defined.

Lemma get_transform_in_time_propagates_exception_witness :
  Scene.get_transform Scene.world Scene.island
    (set_time 5%float Scene.scene).2
  = (Raise NoPathError, (set_time 5%float Scene.scene).2)
  ∧ Scene.get_transform_in_time Scene.world Scene.island 5%float Scene.scene
    = (Raise NoPathError, (set_time 5%float Scene.scene).2).
Proof.
  split; [reflexivity|].
  apply (get_transform_in_time_propagates_exception Scene.get_transform
           Scene.world Scene.island 5%float Scene.scene NoPathError
           (set_time 5%float Scene.scene).2).
  reflexivity.
Defined.

Lemma _get_transform_missing_key_witness :
  contains (_transforms (self Scene.scene)) (Scene.world, Scene.island)
  = false
  ∧ Scene._get_transform (Scene.world, Scene.island) Scene.scene
    = (Raise KeyError, Scene.scene).
Proof.
  split; [reflexivity|].
  apply (_get_transform_missing_key Scene.Joint_as_matrix
           (Scene.world, Scene.island) Scene.scene
           scene_stored_TimeTransforms scene_stored_pure).
  reflexivity.
Defined.

Lemma _set_transform_then_get_transform_witness :
  stored_TimeTransforms Scene.scene
  ∧ stored_pure Scene.Joint_as_matrix Scene.scene
  ∧ Scene._get_transform (Scene.sensor, Scene.island)
      (set_time 3%float
         (_set_transform (Scene.sensor, Scene.island)
            (PyMatrix (Scene.translate 0 2 0)) Scene.scene).2).2
    = (Ok (Scene.translate 0 2 0),
       (set_time 3%float
          (_set_transform (Scene.sensor, Scene.island)
             (PyMatrix (Scene.translate 0 2 0)) Scene.scene).2).2).
Proof.
  split; [exact scene_stored_TimeTransforms|].
  split; [exact scene_stored_pure|].
  apply (_set_transform_then_get_transform Scene.Joint_as_matrix
           (Scene.sensor, Scene.island) (Scene.translate 0 2 0) 3%float
           Scene.scene scene_stored_TimeTransforms scene_stored_pure).
Defined.

Lemma _get_transform_evaluates_at_ambient_time_witness :
  get (_transforms (self Scene.scene)) (Scene.tool, Scene.sensor)
  = Some (PyRef 2)
  ∧ heap Scene.scene !! 2
    = Some (UserTransform
              (Scene.mkJoint 1%float (Scene.eye 4) Scene.quarter_turn))
  ∧ ∃ A, (∀ w', Scene.Joint_as_matrix
                  (Scene.mkJoint 1%float (Scene.eye 4) Scene.quarter_turn)
                  2 90%float w' = (Ok A, w'))
         ∧ Scene._get_transform (Scene.tool, Scene.sensor)
             (set_time 90%float Scene.scene).2
           = (Ok A, (set_time 90%float Scene.scene).2).
Proof.
  split; [reflexivity|]. split; [reflexivity|].
  apply (_get_transform_evaluates_at_ambient_time Scene.Joint_as_matrix
           (Scene.tool, Scene.sensor) 2
           (Scene.mkJoint 1%float (Scene.eye 4) Scene.quarter_turn)
           90%float Scene.scene
           scene_stored_TimeTransforms scene_stored_pure);
    reflexivity.
Defined.

Lemma _del_transform_removes_edge_witness :
  reachable Scene.Joint_check_transforms Scene.scene
  ∧ contains (_transforms (self Scene.scene)) (Scene.robot, Scene.sensor)
    = true
  ∧ ∃ w', _del_transform (Scene.robot, Scene.sensor) Scene.scene
          = (Ok tt, w')
      ∧ _transform_available (Scene.robot, Scene.sensor) w' = (Ok false, w').
Proof.
  split; [exact scene_reachable|]. split; [reflexivity|].
  destruct (_del_transform_removes_edge Scene.Joint_check_transforms
              (Scene.robot, Scene.sensor) Scene.scene
              scene_reachable eq_refl) as (w' & Hdel & Hgone & _).
  exists w'. split; [exact Hdel | exact Hgone].
Defined.

Lemma _del_transform_missing_key_witness :
  contains (_transforms (self Scene.scene)) (Scene.sensor, Scene.robot)
  = false
  ∧ _del_transform (Scene.sensor, Scene.robot) Scene.scene
    = (Raise KeyError, Scene.scene).
Proof.
  split; [reflexivity|].
  apply (_del_transform_missing_key (Scene.sensor, Scene.robot) Scene.scene).
  reflexivity.
Defined.

Lemma _set_transform_frame_witness :
  (Scene.robot, Scene.sensor) ≠ (Scene.world, Scene.robot)
  ∧ get (_transforms
           (self (_set_transform (Scene.world, Scene.robot)
                    (PyMatrix (Scene.quarter_turn)) Scene.scene).2))
        (Scene.robot, Scene.sensor)
    = Some (PyRef 1).
Proof.
  split; [discriminate|].
  destruct (_set_transform_frame (Scene.world, Scene.robot)
              (Scene.robot, Scene.sensor)
              (PyMatrix (H := Scene.Ztransformations) Scene.quarter_turn)
              Scene.scene) as [Hkept _]; [discriminate|].
  exact Hkept.
Defined.

Lemma _set_transform_then_del_transform_witness :
  contains (_transforms (self Scene.scene)) (Scene.world, Scene.island)
  = false
  ∧ self (_del_transform (Scene.world, Scene.island)
            (_set_transform (Scene.world, Scene.island)
               (PyMatrix (Scene.translate 0 0 4)) Scene.scene).2).2
    = self Scene.scene.
Proof.
  split; [reflexivity|].
  apply (_set_transform_then_del_transform (Scene.world, Scene.island)
           (PyMatrix (H := Scene.Ztransformations) (Scene.translate 0 0 4))
           Scene.scene).
  reflexivity.
Defined.

Lemma _set_transform_wraps_in_distinct_objects_witness :
  (Scene.world, Scene.robot) ≠ (Scene.robot, Scene.sensor)
  ∧ ∃ r1 r2,
      get (_transforms
             (self (_set_transform (Scene.robot, Scene.sensor)
                      (PyMatrix (Scene.translate 1 0 0))
                      (_set_transform (Scene.world, Scene.robot)
                         (PyMatrix (Scene.eye 4)) Scene.empty_world).2).2))
          (Scene.world, Scene.robot) = Some (PyRef r1)
      ∧ get (_transforms
               (self (_set_transform (Scene.robot, Scene.sensor)
                        (PyMatrix (Scene.translate 1 0 0))
                        (_set_transform (Scene.world, Scene.robot)
                           (PyMatrix (Scene.eye 4)) Scene.empty_world).2).2))
            (Scene.robot, Scene.sensor) = Some (PyRef r2)
      ∧ r1 ≠ r2.
Proof.
  split; [discriminate|].
  destruct (_set_transform_wraps_in_distinct_objects
              (H := Scene.Ztransformations) (UserObj := Scene.Joint)
              (Scene.world, Scene.robot) (Scene.robot, Scene.sensor)
              (Scene.eye 4) (Scene.translate 1 0 0) Scene.empty_world)
    as (r1 & r2 & H1 & H2 & Hne & _); [discriminate|].
  exists r1, r2. split_and!; assumption.
Defined.

Lemma shared_stored_TimeTransforms : stored_TimeTransforms Scene.shared.
Proof.
  repeat constructor; simpl; eexists _, _; split; reflexivity.
Qed.

Lemma shared_stored_pure : stored_pure Scene.Joint_as_matrix Scene.shared.
Proof.
  repeat constructor; intros r u _ _ t; eexists; intros w'; reflexivity.
Qed.

Lemma _check_transform_reaches_every_edge_witness :
  get (_transforms (self Scene.shared)) (Scene.world, Scene.robot)
  = Some (PyRef 0)
  ∧ get (_transforms (self Scene.shared)) (Scene.robot, Scene.sensor)
    = Some (PyRef 0)
  ∧ ∃ w', Scene._check_transform (PyRef 0) Scene.shared = (Ok (PyRef 0), w')
      ∧ Scene._get_transform (Scene.robot, Scene.sensor) w'
        = (Ok (Scene.translate 1 0 0), w').
Proof.
  split; [reflexivity|]. split; [reflexivity|].
  apply (_check_transform_reaches_every_edge
           Scene.Joint_as_matrix Scene.Joint_check_transforms
           (Scene.robot, Scene.sensor) 0
           (Scene.translate 1 0 0) (Scene.translate 1 0 0) Scene.shared
           shared_stored_TimeTransforms shared_stored_pure);
    reflexivity.
Defined.

Lemma _check_transform_rejected_witness :
  heap Scene.rejected !! 0 = Some (StaticTransform Scene.scaling)
  ∧ check_transform Scene.scaling = Raise InvalidTransformError
  ∧ ∃ w', Scene._check_transform (PyRef 0) Scene.rejected
          = (Raise InvalidTransformError, w')
      ∧ heap w' = heap Scene.rejected
      ∧ self w' = self Scene.rejected
      ∧ checked w' = checked Scene.rejected ++ [Scene.scaling]
      ∧ ∀ time, Scene.as_matrix (PyRef 0) time w' = (Ok Scene.scaling, w').
Proof.
  split; [reflexivity|]. split; [reflexivity|].
  apply (_check_transform_rejected
           Scene.Joint_as_matrix Scene.Joint_check_transforms
           Scene.scaling InvalidTransformError 0 Scene.rejected);
    reflexivity.
Defined.
